(** * ContractGateway: the smart-contract context provider

    A shallow embedding of [src/components/SmartContract/SmartContractProvider.tsx].

    The component keeps two React state cells ([provider], [contract]), fills
    them once in [init], and publishes nine asynchronous accessors that close
    over the values of the cells seen by the render that created them.

    Modelling choices.
    - JavaScript values are the inductive [value]; TypeScript annotations are
      erased at run time, so accessor arguments are plain values.
    - The ethers library, the RPC node and the chain are external.  They are
      the interface [Ethers]: every operation is a function of an abstract
      [World] that yields an [outcome] (returned or threw) and a new world.
    - An [async] function is a computation in [M]: it threads the [State]
      (world, console, trace of completed external calls, the two state
      cells) and ends in [Returned v] (the promise resolves to [v]) or
      [Threw e] (the promise rejects with [e]).  [await] of a rejected
      promise is a throw at that point.  One call is followed from its start
      to its settlement; other tasks running at its suspension points, and
      external calls that never settle, are outside the model. *)

From Stdlib Require Import String ZArith List Lia Bool.
Import ListNotations.

Local Open Scope string_scope.
Local Open Scope Z_scope.
Set Warnings "-register-all".

(** ** JavaScript values

    The values a contract call can yield (decoded results, transaction
    responses), the errors that can be thrown, and the values the component
    itself builds. *)

Inductive value : Type :=
| VUndefined
| VNull
| VBool (b : bool)
| VNumber (n : Z)                          (* a number holding an integer *)
| VString (s : string)
| VBigNumber (z : Z)                       (* ethers BigNumber *)
| VTransaction (hash : nat)                (* a transaction response, has wait() *)
| VError (name message : string)           (* an Error object *)
| VObject (fields : list (string * value)) (* a call Result or an object literal *).

(** Completion of a call: it returned, or it threw (any value can be thrown). *)
Inductive outcome (A : Type) : Type :=
| Returned (a : A)
| Threw (e : value).
Arguments Returned {A} a.
Arguments Threw {A} e.

(** Number.MAX_SAFE_INTEGER: integers up to it are exact as numbers. *)
Definition MAX_SAFE_INTEGER : Z := 2 ^ 53 - 1.

(** What the runtime throws on a property read of null or undefined, or on
    calling something that is not a function (the message is engine text and
    is left empty). *)
Definition TypeError : value := VError "TypeError" "".

Fixpoint lookup_field (k : string) (fields : list (string * value)) : option value :=
  match fields with
  | [] => None
  | (k', v) :: rest => if String.eqb k k' then Some v else lookup_field k rest
  end.

(** [v.k] for the keys the component reads (id, referrer, partnersCount,
    registrationTime): null and undefined throw, an object yields the field
    or undefined, every other value has no such property. *)
Definition get_prop (v : value) (k : string) : outcome value :=
  match v with
  | VUndefined | VNull => Threw TypeError
  | VObject fields =>
      match lookup_field k fields with
      | Some x => Returned x
      | None => Returned VUndefined
      end
  | _ => Returned VUndefined
  end.

(** ** The external collaborators *)

(** ethers (v5 API: [ethers.providers.JsonRpcProvider], [ethers.Contract],
    [BigNumber]) together with the node behind it.  [abi] is the bundled
    [abi.json], which is not part of the sources. *)
Class Ethers : Type := {
  World : Type;
  JsonRpcProvider : Type;
  Signer : Type;
  Contract : Type;
  abi : value;
  (* new ethers.providers.JsonRpcProvider(url) *)
  new_JsonRpcProvider : string -> World -> outcome JsonRpcProvider * World;
  (* new ethers.Contract(address, abi, provider) *)
  new_Contract : string -> value -> JsonRpcProvider -> World -> outcome Contract * World;
  (* provider.getSigner() *)
  getSigner : JsonRpcProvider -> World -> outcome Signer * World;
  (* contract.connect(signer); the signer is undefined when there is no provider *)
  connect : Contract -> option Signer -> World -> outcome Contract * World;
  (* await contract[methodName](...params); a name the handle has no method
     for, a revert and a network fault are all ways for it to throw *)
  invoke : Contract -> string -> list value -> World -> outcome value * World;
  (* await tx.wait() on the transaction with this hash: returns the receipt
     once the transaction is confirmed, throws when it failed *)
  wait : nat -> World -> outcome value * World;
  (* BigNumber.prototype.toNumber *)
  toNumber : Z -> outcome Z
}.

(** ** A concrete collaborator, used to run the model

    The world is a block counter.  The contract knows some read methods and
    one mutating method; a handle produced by [connect] with a signer can
    send transactions, the read-only handle cannot.  [toNumber] follows
    ethers v5: it throws beyond 53 bits. *)

Definition demo_user : value :=
  VObject [("id", VBigNumber 7);
           ("referrer", VString "0xA11ce");
           ("partnersCount", VBigNumber 3);
           ("registrationTime", VBigNumber 1700000000)].

Definition demo_fault : value := VError "Error" "call revert exception".

Definition demo_invoke (signing : bool) (methodName : string) (params : list value)
    (w : nat) : outcome value * nat :=
  if String.eqb methodName "users" then (Returned demo_user, w)
  else if String.eqb methodName "usersActiveX3Levels" then (Returned (VBool true), w)
  else if String.eqb methodName "usersActiveX4Levels" then (Returned (VBool false), w)
  else if String.eqb methodName "usersX3Matrix" then
    (Returned (VObject [("0", VString "0xA11ce"); ("2", VBool false)]), w)
  else if String.eqb methodName "usersX4Matrix" then (Returned (VBigNumber 5), w)
  else if String.eqb methodName "getTotalCycles" then (Returned (VBigNumber 12), w)
  else if String.eqb methodName "getPartnerCount" then (Returned (VBigNumber (2 ^ 60)), w)
  else if String.eqb methodName "registrationExt" then
    if signing then (Returned (VTransaction w), S w) else (Threw demo_fault, w)
  else (Threw demo_fault, w).

Definition demo_toNumber (z : Z) : outcome Z :=
  if Z.abs z <=? MAX_SAFE_INTEGER then Returned z
  else Threw (VError "Error" "overflow").

Definition demo : Ethers := {|
  World := nat;
  JsonRpcProvider := string;
  Signer := string;
  Contract := bool;
  abi := VNull;
  new_JsonRpcProvider := fun url w => (Returned url, w);
  new_Contract := fun _ _ _ w => (Returned false, w);
  getSigner := fun p w => (Returned p, w);
  connect := fun _ s w =>
    (Returned match s with Some _ => true | None => false end, w);
  invoke := demo_invoke;
  wait := fun h w => (Returned (VObject [("status", VNumber 1)]), S w);
  toNumber := demo_toNumber
|}.

Section Gateway.

Context `{E : Ethers}.

(** ** State and effects *)

(** A completed external call, with how it completed. *)
Inductive event : Type :=
| EvNewProvider (url : string) (r : outcome JsonRpcProvider)
| EvNewContract (address : string) (p : JsonRpcProvider) (r : outcome Contract)
| EvGetSigner (p : JsonRpcProvider) (r : outcome Signer)
| EvConnect (c : Contract) (s : option Signer) (r : outcome Contract)
| EvInvoke (c : Contract) (methodName : string) (params : list value) (r : outcome value)
| EvWait (hash : nat) (r : outcome value).

(** The error an event ended with, if it threw. *)
Definition ev_threw (ev : event) : option value :=
  match ev with
  | EvNewProvider _ (Threw e) | EvNewContract _ _ (Threw e)
  | EvGetSigner _ (Threw e) | EvConnect _ _ (Threw e)
  | EvInvoke _ _ _ (Threw e) | EvWait _ (Threw e) => Some e
  | _ => None
  end.

Record State : Type := mkState {
  world : World;                           (* the node and the chain *)
  console : list (list value);             (* console.error calls, oldest first *)
  trace : list event;                      (* completed external calls, oldest first *)
  hook_provider : option JsonRpcProvider;  (* useState cell behind [provider] *)
  hook_contract : option Contract          (* useState cell behind [contract] *)
}.

Definition M (A : Type) : Type := State -> outcome A * State.

Definition ret {A} (a : A) : M A := fun s => (Returned a, s).

Definition throw {A} (e : value) : M A := fun s => (Threw e, s).

Definition bind {A B} (m : M A) (k : A -> M B) : M B :=
  fun s =>
    match m s with
    | (Returned a, s') => k a s'
    | (Threw e, s') => (Threw e, s')
    end.

(** try { body } catch (error) { handler error } *)
Definition try_catch {A} (body : M A) (handler : value -> M A) : M A :=
  fun s =>
    match body s with
    | (Returned a, s') => (Returned a, s')
    | (Threw e, s') => handler e s'
    end.

Definition lift {A} (o : outcome A) : M A := fun s => (o, s).

(** The state once an external call has completed: new world, one more event. *)
Definition record_call (s : State) (w : World) (ev : event) : State :=
  mkState w (console s) (trace s ++ [ev]) (hook_provider s) (hook_contract s).

(** The state once [console.error] has been called with [args]. *)
Definition record_log (s : State) (args : list value) : State :=
  mkState (world s) (console s ++ [args]) (trace s) (hook_provider s) (hook_contract s).

(** Run an external operation on the world and record its completion. *)
Definition extern {A} (ev : outcome A -> event)
    (op : World -> outcome A * World) : M A :=
  fun s => let (r, w) := op (world s) in (r, record_call s w (ev r)).

Definition console_error (args : list value) : M unit :=
  fun s => (Returned tt, record_log s args).

Definition setProvider (p : option JsonRpcProvider) : M unit :=
  fun s => (Returned tt, mkState (world s) (console s) (trace s) p (hook_contract s)).

Definition setContract (c : option Contract) : M unit :=
  fun s => (Returned tt, mkState (world s) (console s) (trace s) (hook_provider s) c).

Notation "x <- m ;; k" := (bind m (fun x => k))
  (at level 61, m at next level, right associativity).
Notation "m ;;; k" := (bind m (fun _ => k))
  (at level 61, right associativity).

(** [v.toNumber()]: only a BigNumber has the method. *)
Definition call_toNumber (v : value) : M value :=
  match v with
  | VBigNumber z =>
      match toNumber z with
      | Returned n => ret (VNumber n)
      | Threw e => throw e
      end
  | _ => throw TypeError
  end.

(** [await tx.wait()]: only a transaction response has the method. *)
Definition call_wait (tx : value) : M value :=
  match tx with
  | VTransaction hash => extern (EvWait hash) (wait hash)
  | _ => throw TypeError
  end.

(** [await c[methodName](...params)] *)
Definition call_method (c : Contract) (methodName : string) (params : list value)
    : M value :=
  extern (EvInvoke c methodName params) (invoke c methodName params).

(** ** The component *)

Definition CONTRACT_ADDRESS : string := "0xb2e1eD3394AC2191313A4a9Fcb5B52C4d3c046eF".
Definition INFURA_PROJECT_ID : string := "54342a1556274e579ef82ed1022b7a7c".

(** The effect run once on mount. *)
Definition init : M unit :=
  try_catch
    (infuraProvider <- extern
        (EvNewProvider ("https://bsc-testnet.infura.io/v3/" ++ INFURA_PROJECT_ID))
        (new_JsonRpcProvider ("https://bsc-testnet.infura.io/v3/" ++ INFURA_PROJECT_ID)) ;;
     setProvider (Some infuraProvider) ;;;
     contractInstance <- extern
        (EvNewContract CONTRACT_ADDRESS infuraProvider)
        (new_Contract CONTRACT_ADDRESS abi infuraProvider) ;;
     setContract (Some contractInstance))
    (fun error =>
       console_error [VString "Error initializing provider or contract:"; error]).

Section Render.

(** The values of the two state cells as one render sees them; the accessors
    created by that render close over them. *)
Variable provider : option JsonRpcProvider.
Variable contract : option Contract.

Definition fetchData (methodName : string) (params : list value) : M value :=
  match contract with
  | None => ret VNull
  | Some c =>
      try_catch
        (result <- call_method c methodName params ;;
         ret result)
        (fun error =>
           console_error
             [VString ("Error fetching data from " ++ methodName ++ ":"); error] ;;;
           ret VNull)
  end.

Definition writeData (methodName : string) (params : list value) : M value :=
  match contract with
  | None => ret VNull
  | Some c =>
      try_catch
        (signer <- match provider with
                   | None => ret None
                   | Some p => s <- extern (EvGetSigner p) (getSigner p) ;; ret (Some s)
                   end ;;
         contractWithSigner <- extern (EvConnect c signer) (connect c signer) ;;
         tx <- call_method contractWithSigner methodName params ;;
         call_wait tx ;;;
         ret tx)
        (fun error =>
           console_error
             [VString ("Error writing data to " ++ methodName ++ ":"); error] ;;;
           ret VNull)
  end.

Definition users (userAddress : value) : M value :=
  match contract with
  | None => ret VNull
  | Some c =>
      try_catch
        (result <- call_method c "users" [userAddress] ;;
         id_raw <- lift (get_prop result "id") ;;
         id <- call_toNumber id_raw ;;
         referrer <- lift (get_prop result "referrer") ;;
         partnersCount_raw <- lift (get_prop result "partnersCount") ;;
         partnersCount <- call_toNumber partnersCount_raw ;;
         registrationTime_raw <- lift (get_prop result "registrationTime") ;;
         registrationTime <- call_toNumber registrationTime_raw ;;
         ret (VObject [("id", id);
                       ("referrer", referrer);
                       ("partnersCount", partnersCount);
                       ("registrationTime", registrationTime)]))
        (fun error =>
           console_error [VString "Error fetching user details:"; error] ;;;
           ret VNull)
  end.

Definition usersActiveX3Levels (userAddress level : value) : M value :=
  match contract with
  | None => ret VNull
  | Some c =>
      try_catch
        (result <- call_method c "usersActiveX3Levels" [userAddress; level] ;;
         ret result)
        (fun error =>
           console_error [VString "Error fetching usersActiveX3Levels:"; error] ;;;
           ret VNull)
  end.

Definition usersActiveX4Levels (userAddress level : value) : M value :=
  match contract with
  | None => ret VNull
  | Some c =>
      try_catch
        (result <- call_method c "usersActiveX4Levels" [userAddress; level] ;;
         ret result)
        (fun error =>
           console_error [VString "Error fetching usersActiveX4Levels:"; error] ;;;
           ret VNull)
  end.

Definition userX3Matrix (userAddress level : value) : M value :=
  match contract with
  | None => ret VNull
  | Some c =>
      try_catch
        (result <- call_method c "usersX3Matrix" [userAddress; level] ;;
         ret result)
        (fun error =>
           console_error [VString "Error fetching usersX3Matrix:"; error] ;;;
           ret VNull)
  end.

Definition userX4Matrix (userAddress level : value) : M value :=
  match contract with
  | None => ret VNull
  | Some c =>
      try_catch
        (result <- call_method c "usersX4Matrix" [userAddress; level] ;;
         call_toNumber result)
        (fun error =>
           console_error [VString "Error fetching userX4Matrix:"; error] ;;;
           ret VNull)
  end.

Definition getTotalCycles (userAddress matrix level : value) : M value :=
  match contract with
  | None => ret VNull
  | Some c =>
      try_catch
        (cycles <- call_method c "getTotalCycles" [userAddress; matrix; level] ;;
         call_toNumber cycles)
        (fun error =>
           console_error [VString "Error fetching total cycles:"; error] ;;;
           ret VNull)
  end.

Definition getPartnerCount (userAddress matrix level : value) : M value :=
  match contract with
  | None => ret VNull
  | Some c =>
      try_catch
        (partnerCount <- call_method c "getPartnerCount" [userAddress; matrix; level] ;;
         call_toNumber partnerCount)
        (fun error =>
           console_error [VString "Error fetching partner count:"; error] ;;;
           ret VNull)
  end.

End Render.

(** The object published through the React context. *)
Record SmartContractContextType : Type := mkContext {
  ctx_fetchData : string -> list value -> M value;
  ctx_writeData : string -> list value -> M value;
  ctx_users : value -> M value;
  ctx_usersActiveX3Levels : value -> value -> M value;
  ctx_usersActiveX4Levels : value -> value -> M value;
  ctx_getTotalCycles : value -> value -> value -> M value;
  ctx_userX3Matrix : value -> value -> M value;
  ctx_userX4Matrix : value -> value -> M value;
  ctx_getPartnerCount : value -> value -> value -> M value;
  ctx_provider : option JsonRpcProvider
}.

(** The context value built by a render that sees [provider] and [contract]. *)
Definition context_value (provider : option JsonRpcProvider)
    (contract : option Contract) : SmartContractContextType :=
  {| ctx_fetchData := fetchData contract;
     ctx_writeData := writeData provider contract;
     ctx_users := users contract;
     ctx_usersActiveX3Levels := usersActiveX3Levels contract;
     ctx_usersActiveX4Levels := usersActiveX4Levels contract;
     ctx_getTotalCycles := getTotalCycles contract;
     ctx_userX3Matrix := userX3Matrix contract;
     ctx_userX4Matrix := userX4Matrix contract;
     ctx_getPartnerCount := getPartnerCount contract;
     ctx_provider := provider |}.

(** One render of the component: [useState] reads the two cells, and the
    value handed to [SmartContractContext.Provider] is built from them. *)
Definition SmartContractProvider (s : State) : SmartContractContextType :=
  context_value (hook_provider s) (hook_contract s).

(** The state cells start as null; nothing has run yet. *)
Definition mount (w : World) : State := mkState w [] [] None None.

(** [useContext] yields the value of the nearest mounted provider, or the
    default of [createContext], undefined, modelled as [None]. *)
Definition useSmartContract (context : option SmartContractContextType)
    : outcome SmartContractContextType :=
  match context with
  | None =>
      Threw (VError "Error" "useSmartContract must be used within a SmartContractProvider")
  | Some ctx => Returned ctx
  end.

(** A call of one of the nine accessors with its arguments. *)
Inductive accessor_call : Type :=
| FetchData (methodName : string) (params : list value)
| WriteData (methodName : string) (params : list value)
| Users (userAddress : value)
| UsersActiveX3Levels (userAddress level : value)
| UsersActiveX4Levels (userAddress level : value)
| UserX3Matrix (userAddress level : value)
| UserX4Matrix (userAddress level : value)
| GetTotalCycles (userAddress matrix level : value)
| GetPartnerCount (userAddress matrix level : value).

Definition run (ctx : SmartContractContextType) (a : accessor_call) : M value :=
  match a with
  | FetchData m ps => ctx_fetchData ctx m ps
  | WriteData m ps => ctx_writeData ctx m ps
  | Users u => ctx_users ctx u
  | UsersActiveX3Levels u l => ctx_usersActiveX3Levels ctx u l
  | UsersActiveX4Levels u l => ctx_usersActiveX4Levels ctx u l
  | UserX3Matrix u l => ctx_userX3Matrix ctx u l
  | UserX4Matrix u l => ctx_userX4Matrix ctx u l
  | GetTotalCycles u m l => ctx_getTotalCycles ctx u m l
  | GetPartnerCount u m l => ctx_getPartnerCount ctx u m l
  end.

(** The first argument of the accessor's [console.error] in its catch block. *)
Definition failure_message (a : accessor_call) : string :=
  match a with
  | FetchData m _ => "Error fetching data from " ++ m ++ ":"
  | WriteData m _ => "Error writing data to " ++ m ++ ":"
  | Users _ => "Error fetching user details:"
  | UsersActiveX3Levels _ _ => "Error fetching usersActiveX3Levels:"
  | UsersActiveX4Levels _ _ => "Error fetching usersActiveX4Levels:"
  | UserX3Matrix _ _ => "Error fetching usersX3Matrix:"
  | UserX4Matrix _ _ => "Error fetching userX4Matrix:"
  | GetTotalCycles _ _ _ => "Error fetching total cycles:"
  | GetPartnerCount _ _ _ => "Error fetching partner count:"
  end.

(** The contract method a read accessor invokes, with the arguments it
    passes; [writeData] goes through a handle of its own instead. *)
Definition read_target (a : accessor_call) : option (string * list value) :=
  match a with
  | FetchData m ps => Some (m, ps)
  | WriteData _ _ => None
  | Users u => Some ("users", [u])
  | UsersActiveX3Levels u l => Some ("usersActiveX3Levels", [u; l])
  | UsersActiveX4Levels u l => Some ("usersActiveX4Levels", [u; l])
  | UserX3Matrix u l => Some ("usersX3Matrix", [u; l])
  | UserX4Matrix u l => Some ("usersX4Matrix", [u; l])
  | GetTotalCycles u m l => Some ("getTotalCycles", [u; m; l])
  | GetPartnerCount u m l => Some ("getPartnerCount", [u; m; l])
  end.

(** The three accessors that end in [.toNumber()] on the result itself. *)
Definition numeric_accessor (a : accessor_call) : bool :=
  match a with
  | UserX4Matrix _ _ | GetTotalCycles _ _ _ | GetPartnerCount _ _ _ => true
  | _ => false
  end.

(** A computation that leaves the state alone. *)
Definition stateless {A} (m : M A) : Prop := forall s, snd (m s) = s.

(** The events a call added to the trace. *)
Definition new_events (before after : State) : list event :=
  skipn (length (trace before)) (trace after).

(** A contract method call, as opposed to the other external calls. *)
Definition is_invoke (ev : event) : bool :=
  match ev with
  | EvInvoke _ _ _ _ => true
  | _ => false
  end.

(** Does the field [k] of a result hold a BigNumber that [toNumber]
    converts?  This is what [users] needs of each of its numeric fields. *)
Definition converts (fields : list (string * value)) (k : string) : bool :=
  match lookup_field k fields with
  | Some (VBigNumber z) =>
      match toNumber z with
      | Returned _ => true
      | Threw _ => false
      end
  | _ => false
  end.

(** The name under which the context publishes an accessor. *)
Definition accessor_name (a : accessor_call) : string :=
  match a with
  | FetchData _ _ => "fetchData"
  | WriteData _ _ => "writeData"
  | Users _ => "users"
  | UsersActiveX3Levels _ _ => "usersActiveX3Levels"
  | UsersActiveX4Levels _ _ => "usersActiveX4Levels"
  | UserX3Matrix _ _ => "userX3Matrix"
  | UserX4Matrix _ _ => "userX4Matrix"
  | GetTotalCycles _ _ _ => "getTotalCycles"
  | GetPartnerCount _ _ _ => "getPartnerCount"
  end.

(** The method name the caller chose, for the two generic accessors. *)
Definition dynamic_method (a : accessor_call) : option string :=
  match a with
  | FetchData m _ | WriteData m _ => Some m
  | _ => None
  end.

(** [provider?.getSigner()] on a world: no provider gives undefined and
    calls nothing. *)
Definition optional_getSigner (provider : option JsonRpcProvider) (w : World)
    : outcome (option Signer) * World :=
  match provider with
  | None => (Returned None, w)
  | Some p =>
      let (r, w') := getSigner p w in
      (match r with
       | Returned signer => Returned (Some signer)
       | Threw e => Threw e
       end, w')
  end.

(** An external call of the accessor call [a], made in state [s] with the
    stored handle [c], throws [e] and leaves the world [w].  For a read
    accessor it is the contract method of [read_target]; for [writeData] it
    is, in the order of its try block, the signer request, [connect], the
    method on the connected handle, or the wait on the transaction that
    method returned, each reached only when the calls before it returned. *)
Inductive underlying_call_throws (provider : option JsonRpcProvider) (c : Contract)
    (s : State) : accessor_call -> value -> World -> Prop :=
| read_call_throws a m ps e w :
    read_target a = Some (m, ps) ->
    invoke c m ps (world s) = (Threw e, w) ->
    underlying_call_throws provider c s a e w
| getSigner_throws m ps e w :
    optional_getSigner provider (world s) = (Threw e, w) ->
    underlying_call_throws provider c s (WriteData m ps) e w
| connect_throws m ps signer w0 e w :
    optional_getSigner provider (world s) = (Returned signer, w0) ->
    connect c signer w0 = (Threw e, w) ->
    underlying_call_throws provider c s (WriteData m ps) e w
| method_throws m ps signer w0 c' w1 e w :
    optional_getSigner provider (world s) = (Returned signer, w0) ->
    connect c signer w0 = (Returned c', w1) ->
    invoke c' m ps w1 = (Threw e, w) ->
    underlying_call_throws provider c s (WriteData m ps) e w
| wait_throws m ps signer w0 c' w1 hash w2 e w :
    optional_getSigner provider (world s) = (Returned signer, w0) ->
    connect c signer w0 = (Returned c', w1) ->
    invoke c' m ps w1 = (Returned (VTransaction hash), w2) ->
    wait hash w2 = (Threw e, w) ->
    underlying_call_throws provider c s (WriteData m ps) e w.

(** The states the component can be in: the mounted state, and from there
    any sequence of [init] runs, of accessor calls through the context of
    any render made so far, and of changes of the world by others. *)
Inductive reachable : State -> Prop :=
| reach_mount w : reachable (mount w)
| reach_init s : reachable s -> reachable (snd (init s))
| reach_call s0 s a :
    reachable s0 -> reachable s ->
    reachable (snd (run (SmartContractProvider s0) a s))
| reach_world s w :
    reachable s ->
    reachable (mkState w (console s) (trace s) (hook_provider s) (hook_contract s)).

(** A wait on a transaction. *)
Definition is_wait (ev : event) : bool :=
  match ev with
  | EvWait _ _ => true
  | _ => false
  end.

End Gateway.

(** ** States of the concrete collaborator *)

Definition demo_mounted : @State demo := @mount demo 100%nat.

Definition demo_ready : @State demo := snd (@init demo demo_mounted).

Definition demo_provider : option string := @hook_provider demo demo_ready.

Definition demo_contract : bool := false.

Definition demo_written : @State demo :=
  snd (@writeData demo demo_provider (Some demo_contract)
         "registrationExt" [VString "0xB0b"] demo_ready).

(** A collaborator whose every contract call is rejected. *)
Definition offline : Ethers := {|
  World := nat;
  JsonRpcProvider := string;
  Signer := string;
  Contract := bool;
  abi := VNull;
  new_JsonRpcProvider := fun url w => (Returned url, w);
  new_Contract := fun _ _ _ w => (Returned false, w);
  getSigner := fun p w => (Returned p, w);
  connect := fun _ s w => (Returned true, w);
  invoke := fun _ _ _ w => (Threw (VError "Error" "network fault"), S w);
  wait := fun h w => (Threw (VError "Error" "network fault"), w);
  toNumber := demo_toNumber
|}.

Definition offline_state : @State offline :=
  @mkState offline 7%nat [] [] (Some "rpc") (Some false).

(** A collaborator that answers every contract call from a script: [reply]
    gives the completion of a method by name, on a handle that can sign or
    not, and [confirmation] the completion of every wait.  [construct] is
    the completion of the contract constructor. *)
Definition scripted (construct : outcome bool)
    (reply : bool -> string -> outcome value) (confirmation : outcome value)
    : Ethers := {|
  World := nat;
  JsonRpcProvider := string;
  Signer := string;
  Contract := bool;
  abi := VNull;
  new_JsonRpcProvider := fun url w => (Returned url, w);
  new_Contract := fun _ _ _ w => (construct, w);
  getSigner := fun p w => (Returned p, w);
  connect := fun _ s w =>
    (Returned match s with Some _ => true | None => false end, w);
  invoke := fun c m _ w => (reply c m, S w);
  wait := fun _ w => (confirmation, S w);
  toNumber := demo_toNumber
|}.

(** The contract constructor rejects the interface description. *)
Definition bad_abi : Ethers :=
  scripted (Threw (VError "Error" "invalid fragment"))
    (fun _ _ => Threw demo_fault) (Threw demo_fault).

(** The user tuple comes back with an identifier beyond 53 bits. *)
Definition huge_id_fields : list (string * value) :=
  [("id", VBigNumber (2 ^ 64));
   ("referrer", VString "0xA11ce");
   ("partnersCount", VBigNumber 3);
   ("registrationTime", VBigNumber 1700000000)].

Definition huge_id : Ethers :=
  scripted (Returned false) (fun _ _ => Returned (VObject huge_id_fields))
    (Threw demo_fault).

(** The user tuple comes back without a referrer. *)
Definition no_referrer_fields : list (string * value) :=
  [("id", VBigNumber 7);
   ("partnersCount", VBigNumber 3);
   ("registrationTime", VBigNumber 1700000000)].

Definition no_referrer : Ethers :=
  scripted (Returned false) (fun _ _ => Returned (VObject no_referrer_fields))
    (Threw demo_fault).


Definition scripted_state (E : Ethers) (w : @World E) (p : @JsonRpcProvider E)
    (c : @Contract E) : @State E :=
  @mkState E w [] [] (Some p) (Some c).

(** ** Proof steps *)

Ltac unfold_effects :=
  unfold try_catch, bind, call_method, call_wait, extern, console_error,
    ret, throw, lift.

(** Case analysis on the innermost stuck scrutinee of the goal. *)
Ltac split_outcome :=
  match goal with
  | |- context [match ?x with _ => _ end] =>
      lazymatch x with
      | context [match _ with _ => _ end] => fail
      | _ => destruct x eqn:?
      end
  end.

(** Closes the case of [writeData] in which every step returned. *)
Ltac confirmed_leaf :=
  split; [reflexivity|]; split; [reflexivity|];
  split; [repeat constructor | reflexivity].

(** Splits a hypothesis [In ev l] over a list given by its elements. *)
Ltac cases_of_In H :=
  simpl in H;
  repeat match type of H with
         | _ \/ _ => destruct H as [H|H]
         end.

(** * Properties *)

Section GatewayProperties.

Context `{E : Ethers}.

Lemma skipn_length_app {A} (l l' : list A) : skipn (length l) (l ++ l') = l'.
Proof. induction l as [|x l IH]; simpl; auto. Qed.

Lemma new_events_app (s s' : State) (evs : list event) :
  trace s' = (trace s ++ evs)%list -> new_events s s' = evs.
Proof. intros H. unfold new_events. rewrite H. apply skipn_length_app. Qed.

(** The guard [if (!contract) return null] that opens every accessor. *)
Lemma run_unset (provider : option JsonRpcProvider) (a : accessor_call) (s : State) :
  run (context_value provider None) a s = (Returned VNull, s).
Proof. destruct a; reflexivity. Qed.

(** *** Stateless steps *)

Lemma stateless_ret {A} (a : A) : stateless (ret a).
Proof. intros s. reflexivity. Qed.

Lemma stateless_lift {A} (o : outcome A) : stateless (lift o).
Proof. intros s. reflexivity. Qed.

Lemma stateless_call_toNumber (v : value) : stateless (call_toNumber v).
Proof.
  intros s. destruct v; try reflexivity.
  simpl. destruct (toNumber z); reflexivity.
Qed.

Lemma stateless_bind {A B} (m : M A) (k : A -> M B) :
  stateless m -> (forall a, stateless (k a)) -> stateless (bind m k).
Proof.
  intros Hm Hk s. unfold bind. specialize (Hm s).
  destruct (m s) as [[a|e] s1]; simpl in *; subst s1.
  - apply Hk.
  - reflexivity.
Qed.

(** *** The shape shared by the eight read accessors

    One contract call, a stateless continuation, and a catch block that logs
    [msg] with the error and yields null. *)
Lemma guarded_read (c : Contract) (m : string) (ps : list value)
    (k : value -> M value) (msg : string) (s : State) :
  (forall v, stateless (k v)) ->
  try_catch (bind (call_method c m ps) k)
    (fun error => bind (console_error [VString msg; error]) (fun _ => ret VNull)) s
  = let r := fst (invoke c m ps (world s)) in
    let s1 := record_call s (snd (invoke c m ps (world s))) (EvInvoke c m ps r) in
    match r with
    | Returned v =>
        match fst (k v s1) with
        | Returned x => (Returned x, s1)
        | Threw e => (Returned VNull, record_log s1 [VString msg; e])
        end
    | Threw e => (Returned VNull, record_log s1 [VString msg; e])
    end.
Proof.
  intros Hk. unfold try_catch, bind, call_method, extern, console_error, ret.
  destruct (invoke c m ps (world s)) as [[v|e] w]; simpl; [|reflexivity].
  specialize (Hk v (record_call s w (EvInvoke c m ps (Returned v)))).
  destruct (k v _) as [[x|e] s2]; simpl in *; subst s2; reflexivity.
Qed.

(** Every read accessor is an instance of that shape. *)
Lemma read_accessor_shape (provider : option JsonRpcProvider) (c : Contract)
    (a : accessor_call) (m : string) (ps : list value) :
  read_target a = Some (m, ps) ->
  exists k : value -> M value,
    (forall v, stateless (k v)) /\
    run (context_value provider (Some c)) a
    = try_catch (bind (call_method c m ps) k)
        (fun error =>
           bind (console_error [VString (failure_message a); error])
                (fun _ => ret VNull)).
Proof.
  intros Ht.
  destruct a; simpl in Ht; inversion Ht; subst; clear Ht;
    (eexists; split; [|reflexivity]);
    repeat (intros; cbv beta;
            first [ apply stateless_ret
                  | apply stateless_lift
                  | apply stateless_call_toNumber
                  | apply stateless_bind ]).
Qed.

(** A read accessor adds exactly one event: its contract call. *)
Lemma read_accessor_trace (provider : option JsonRpcProvider) (c : Contract)
    (a : accessor_call) (m : string) (ps : list value) (s : State) :
  read_target a = Some (m, ps) ->
  trace (snd (run (context_value provider (Some c)) a s))
  = (trace s ++ [EvInvoke c m ps (fst (invoke c m ps (world s)))])%list.
Proof.
  intros Ht. destruct (read_accessor_shape provider c a m ps Ht) as (k & Hk & ->).
  rewrite guarded_read by exact Hk. cbv zeta.
  destruct (fst (invoke c m ps (world s))) as [v|e]; [|reflexivity].
  destruct (fst (k v _)); reflexivity.
Qed.

(** When that call throws, the accessor logs once and resolves to null. *)
Lemma read_accessor_failure (provider : option JsonRpcProvider) (c : Contract)
    (a : accessor_call) (m : string) (ps : list value) (s : State) (e : value) :
  read_target a = Some (m, ps) ->
  fst (invoke c m ps (world s)) = Threw e ->
  run (context_value provider (Some c)) a s
  = (Returned VNull,
     record_log
       (record_call s (snd (invoke c m ps (world s))) (EvInvoke c m ps (Threw e)))
       [VString (failure_message a); e]).
Proof.
  intros Ht He. destruct (read_accessor_shape provider c a m ps Ht) as (k & Hk & ->).
  rewrite guarded_read by exact Hk. cbv zeta. rewrite He. reflexivity.
Qed.

(** When that call returns, the accessor either returns what its stateless
    continuation makes of the result, logging nothing, or logs the
    continuation's error once and resolves to null. *)
Lemma read_accessor_success (provider : option JsonRpcProvider) (c : Contract)
    (a : accessor_call) (m : string) (ps : list value) (s : State) (v : value) :
  read_target a = Some (m, ps) ->
  fst (invoke c m ps (world s)) = Returned v ->
  let s1 := record_call s (snd (invoke c m ps (world s)))
              (EvInvoke c m ps (Returned v)) in
  (exists x, run (context_value provider (Some c)) a s = (Returned x, s1)) \/
  (exists e, run (context_value provider (Some c)) a s
             = (Returned VNull, record_log s1 [VString (failure_message a); e])).
Proof.
  intros Ht Hv s1. destruct (read_accessor_shape provider c a m ps Ht) as (k & Hk & ->).
  rewrite guarded_read by exact Hk. cbv zeta. rewrite Hv. fold s1.
  destruct (fst (k v s1)) as [x|e]; [left|right]; eexists; reflexivity.
Qed.

(** *** [writeData] *)

(** The ways a [writeData] call can go.  Either every external step returned,
    the last two being the contract call that produced the transaction and
    the wait on that transaction, and the transaction is the result with
    nothing logged; or one step failed, it is the only failure of the call,
    and the call logged it once and resolved to null. *)
Lemma writeData_cases (provider : option JsonRpcProvider) (c : Contract)
    (m : string) (ps : list value) (s : State) :
  let R := writeData provider (Some c) m ps s in
  exists evs : list event,
    trace (snd R) = (trace s ++ evs)%list /\
    ((exists pre c' hash receipt,
         fst R = Returned (VTransaction hash) /\
         evs = (pre ++ [EvInvoke c' m ps (Returned (VTransaction hash));
                        EvWait hash (Returned receipt)])%list /\
         Forall (fun ev => ev_threw ev = None) evs /\
         console (snd R) = console s)
     \/
     (exists e,
         fst R = Returned VNull /\
         console (snd R)
         = (console s ++ [[VString ("Error writing data to " ++ m ++ ":"); e]])%list /\
         forall ev e', In ev evs -> ev_threw ev = Some e' -> e' = e)).
Proof.
  cbv zeta. unfold writeData. unfold_effects.
  repeat split_outcome; simpl;
    (eexists; split;
     [ rewrite <- ?app_assoc; simpl; reflexivity | ]).
  all: first
    [ solve [ left; eexists [_; _], _, _, _; confirmed_leaf ]
    | solve [ left; eexists [_], _, _, _; confirmed_leaf ]
    | solve [ right; eexists; split; [reflexivity|]; split; [reflexivity|];
              intros ev e' Hin Hthrew; simpl in Hin;
              repeat (destruct Hin as [<-|Hin]; [simpl in Hthrew; congruence|]);
              contradiction ] ].
Qed.

(** *** All accessors *)

(** What an accessor run adds to the trace, whatever the accessor. *)
Lemma accessor_trace_extends (provider : option JsonRpcProvider)
    (contract : option Contract) (a : accessor_call) (s : State) :
  exists evs,
    trace (snd (run (context_value provider contract) a s)) = (trace s ++ evs)%list.
Proof.
  destruct contract as [c|].
  - destruct (read_target a) as [[m ps]|] eqn:Ht.
    + eexists. apply (read_accessor_trace provider c a m ps s Ht).
    + destruct a; try discriminate.
      destruct (writeData_cases provider c methodName params s) as (evs & Htr & _).
      exists evs. exact Htr.
  - rewrite run_unset. exists []. symmetry. apply app_nil_r.
Qed.

(** No accessor ever rejects: the promise it returns always resolves. *)
Lemma accessor_never_rejects (provider : option JsonRpcProvider)
    (contract : option Contract) (a : accessor_call) (s : State) :
  exists v, fst (run (context_value provider contract) a s) = Returned v.
Proof.
  destruct contract as [c|]; [|rewrite run_unset; eexists; reflexivity].
  destruct (read_target a) as [[m ps]|] eqn:Ht.
  - destruct (fst (invoke c m ps (world s))) as [v|e] eqn:Hr.
    + destruct (read_accessor_success provider c a m ps s v Ht Hr) as [[x ->]|[e ->]];
        eexists; reflexivity.
    + rewrite (read_accessor_failure provider c a m ps s e Ht Hr). eexists; reflexivity.
  - destruct a; try discriminate.
    destruct (writeData_cases provider c methodName params s)
      as (evs & _ & [(pre & c' & hash & receipt & Hr & _)|(e & Hr & _)]);
      eexists; exact Hr.
Qed.

(** No accessor writes the two state cells. *)
Lemma accessor_keeps_cells (provider : option JsonRpcProvider)
    (contract : option Contract) (a : accessor_call) (s : State) :
  hook_provider (snd (run (context_value provider contract) a s)) = hook_provider s /\
  hook_contract (snd (run (context_value provider contract) a s)) = hook_contract s.
Proof.
  destruct contract as [c|]; [|rewrite run_unset; split; reflexivity].
  destruct (read_target a) as [[m ps]|] eqn:Ht.
  - destruct (fst (invoke c m ps (world s))) as [v|e] eqn:Hr.
    + destruct (read_accessor_success provider c a m ps s v Ht Hr) as [[x ->]|[e ->]];
        split; reflexivity.
    + rewrite (read_accessor_failure provider c a m ps s e Ht Hr). split; reflexivity.
  - destruct a; try discriminate. simpl.
    unfold writeData. unfold_effects.
    repeat split_outcome; simpl; split; reflexivity.
Qed.

(** *** Initialisation *)

(** When both constructors return, [init] stores both handles and logs
    nothing. *)
Lemma init_success (s : State) (p : JsonRpcProvider) (c : Contract) (w1 w2 : World) :
  let url := "https://bsc-testnet.infura.io/v3/" ++ INFURA_PROJECT_ID in
  new_JsonRpcProvider url (world s) = (Returned p, w1) ->
  new_Contract CONTRACT_ADDRESS abi p w1 = (Returned c, w2) ->
  init s
  = (Returned tt,
     mkState w2 (console s)
       (trace s ++ [EvNewProvider url (Returned p);
                    EvNewContract CONTRACT_ADDRESS p (Returned c)])
       (Some p) (Some c)).
Proof.
  intros url Hp Hc. unfold init, setProvider, setContract. unfold_effects.
  fold url. rewrite Hp. simpl. rewrite Hc. simpl.
  rewrite <- app_assoc. reflexivity.
Qed.

(** When the provider constructor throws, [init] logs the error and writes
    neither cell. *)
Lemma init_provider_failure (s : State) (e : value) (w1 : World) :
  let url := "https://bsc-testnet.infura.io/v3/" ++ INFURA_PROJECT_ID in
  new_JsonRpcProvider url (world s) = (Threw e, w1) ->
  init s
  = (Returned tt,
     record_log (record_call s w1 (EvNewProvider url (Threw e)))
       [VString "Error initializing provider or contract:"; e]).
Proof.
  intros url Hp. unfold init. unfold_effects. fold url. rewrite Hp. reflexivity.
Qed.

(** When the contract constructor throws, the provider cell has already been
    written; the contract cell keeps its value and the error is logged. *)
Lemma init_contract_failure (s : State) (p : JsonRpcProvider) (e : value)
    (w1 w2 : World) :
  let url := "https://bsc-testnet.infura.io/v3/" ++ INFURA_PROJECT_ID in
  new_JsonRpcProvider url (world s) = (Returned p, w1) ->
  new_Contract CONTRACT_ADDRESS abi p w1 = (Threw e, w2) ->
  fst (init s) = Returned tt /\
  hook_provider (snd (init s)) = Some p /\
  hook_contract (snd (init s)) = hook_contract s /\
  console (snd (init s))
  = (console s ++ [[VString "Error initializing provider or contract:"; e]])%list.
Proof.
  intros url Hp Hc. unfold init, setProvider, setContract. unfold_effects.
  fold url. rewrite Hp. simpl. rewrite Hc. simpl. repeat split; reflexivity.
Qed.

(** ** Properties of the specification *)

(** C1. With the contract handle unset, every accessor, on every input and
    in every state, resolves to null; it does not reject, and it calls and
    logs nothing (the state is left as it was). *)
Theorem unset_contract_yields_null :
  forall (provider : option JsonRpcProvider) (a : accessor_call) (s : State),
    run (context_value provider None) a s = (Returned VNull, s).
Proof. intros provider a s. apply run_unset. Qed.

(** C2. If an external call underlying an accessor call throws [e] (for a
    read accessor its contract method; for [writeData] the signer request,
    [connect], the method or the wait), then, whatever the accessor, its
    arguments and the state, the accessor does not reject: it resolves to
    null, the console gained exactly one line, the accessor's failure
    message with [e], and the world is the one the throwing call left (no
    further call was made). *)
Theorem failure_contained_and_logged_once :
  forall (provider : option JsonRpcProvider) (c : Contract)
         (a : accessor_call) (s : State) (e : value) (w : World),
    underlying_call_throws provider c s a e w ->
    fst (run (context_value provider (Some c)) a s) = Returned VNull /\
    console (snd (run (context_value provider (Some c)) a s))
    = (console s ++ [[VString (failure_message a); e]])%list /\
    world (snd (run (context_value provider (Some c)) a s)) = w.
Proof.
  intros provider c a s e w H.
  destruct H as [a m ps e w Ht Hcall
                | m ps e w Hsig
                | m ps signer w0 e w Hsig Hcon
                | m ps signer w0 c' w1 e w Hsig Hcon Hcall
                | m ps signer w0 c' w1 hash w2 e w Hsig Hcon Hcall Hwait].
  - assert (Hr : fst (invoke c m ps (world s)) = Threw e) by (rewrite Hcall; reflexivity).
    rewrite (read_accessor_failure provider c a m ps s e Ht Hr).
    rewrite Hcall. repeat split.
  - cbn [run context_value ctx_writeData]. unfold writeData. unfold_effects.
    unfold optional_getSigner in Hsig. destruct provider as [p|]; [|discriminate].
    destruct (getSigner p (world s)) as [[sg|e0] w']; inversion Hsig; subst.
    repeat split.
  - cbn [run context_value ctx_writeData]. unfold writeData. unfold_effects.
    unfold optional_getSigner in Hsig. destruct provider as [p|].
    + destruct (getSigner p (world s)) as [[sg|e0] w']; inversion Hsig; subst.
      cbn [fst snd world record_call]. rewrite Hcon. repeat split.
    + inversion Hsig; subst. cbn [fst snd world record_call].
      rewrite Hcon. repeat split.
  - cbn [run context_value ctx_writeData]. unfold writeData. unfold_effects.
    unfold optional_getSigner in Hsig. destruct provider as [p|].
    + destruct (getSigner p (world s)) as [[sg|e0] w']; inversion Hsig; subst.
      cbn [fst snd world record_call]. rewrite Hcon.
      cbn [fst snd world record_call]. rewrite Hcall. repeat split.
    + inversion Hsig; subst. cbn [fst snd world record_call]. rewrite Hcon.
      cbn [fst snd world record_call]. rewrite Hcall. repeat split.
  - cbn [run context_value ctx_writeData]. unfold writeData. unfold_effects.
    unfold optional_getSigner in Hsig. destruct provider as [p|].
    + destruct (getSigner p (world s)) as [[sg|e0] w']; inversion Hsig; subst.
      cbn [fst snd world record_call]. rewrite Hcon.
      cbn [fst snd world record_call]. rewrite Hcall.
      cbn [fst snd world record_call]. rewrite Hwait. repeat split.
    + inversion Hsig; subst. cbn [fst snd world record_call]. rewrite Hcon.
      cbn [fst snd world record_call]. rewrite Hcall.
      cbn [fst snd world record_call]. rewrite Hwait. repeat split.
Qed.

(** C3. [writeData] and the confirmation.  First, whenever [writeData]
    resolves to something other than null, that value is a transaction
    which the method, called on the connected handle, returned, and on
    which [wait] was then called and returned a receipt; the final world is
    the one [wait] left, and the method call and the wait are the last two
    external calls completed.  Second, whenever the signer request,
    [connect], the method and the wait all return, [writeData] resolves to
    that transaction. *)
Theorem writeData_resolves_after_confirmation :
  forall (provider : option JsonRpcProvider) (contract : option Contract)
         (methodName : string) (params : list value) (s : State),
    (forall (s' : State) (v : value),
        writeData provider contract methodName params s = (Returned v, s') ->
        v <> VNull ->
        exists c signer w0 c' w1 hash w2 receipt pre,
          contract = Some c /\
          v = VTransaction hash /\
          optional_getSigner provider (world s) = (Returned signer, w0) /\
          connect c signer w0 = (Returned c', w1) /\
          invoke c' methodName params w1 = (Returned (VTransaction hash), w2) /\
          wait hash w2 = (Returned receipt, world s') /\
          new_events s s'
          = (pre ++ [EvInvoke c' methodName params (Returned (VTransaction hash));
                     EvWait hash (Returned receipt)])%list)
    /\
    (forall c signer w0 c' w1 hash w2 receipt w3,
        contract = Some c ->
        optional_getSigner provider (world s) = (Returned signer, w0) ->
        connect c signer w0 = (Returned c', w1) ->
        invoke c' methodName params w1 = (Returned (VTransaction hash), w2) ->
        wait hash w2 = (Returned receipt, w3) ->
        fst (writeData provider contract methodName params s)
        = Returned (VTransaction hash) /\
        world (snd (writeData provider contract methodName params s)) = w3 /\
        console (snd (writeData provider contract methodName params s)) = console s).
Proof.
  intros provider contract m ps s. split.
  - intros s' v. destruct contract as [c|].
    2: { simpl. unfold ret. intros H Hv. congruence. }
    unfold writeData, optional_getSigner. unfold_effects.
    repeat split_outcome; cbn [fst snd world record_call] in *;
      intros Hrun Hv; inversion Hrun; subst; try congruence;
      cbn [world record_call record_log];
      first
        [ eexists _, _, _, _, _, _, _, _, [_; _];
          (repeat (split; [first [reflexivity | eassumption]|]);
           apply new_events_app; unfold record_call; cbn [trace];
           repeat rewrite <- app_assoc; simpl; reflexivity)
        | eexists _, _, _, _, _, _, _, _, [_];
          (repeat (split; [first [reflexivity | eassumption]|]);
           apply new_events_app; unfold record_call; cbn [trace];
           repeat rewrite <- app_assoc; simpl; reflexivity) ].
  - intros c signer w0 c' w1 hash w2 receipt w3 -> Hsig Hcon Hcall Hwait.
    unfold writeData. unfold_effects.
    unfold optional_getSigner in Hsig. destruct provider as [p|].
    + destruct (getSigner p (world s)) as [[sg|e0] w']; inversion Hsig; subst.
      cbn [fst snd world record_call]. rewrite Hcon.
      cbn [fst snd world record_call]. rewrite Hcall.
      cbn [fst snd world record_call]. rewrite Hwait. repeat split.
    + inversion Hsig; subst. cbn [fst snd world record_call]. rewrite Hcon.
      cbn [fst snd world record_call]. rewrite Hcall.
      cbn [fst snd world record_call]. rewrite Hwait. repeat split.
Qed.

(** C9. No accessor call, whatever its arguments and however it ends,
    changes the provider cell or the contract cell; [init] is the only
    computation of the component that writes them. *)
Theorem accessors_leave_cells_alone :
  forall (provider : option JsonRpcProvider) (contract : option Contract)
         (a : accessor_call) (s : State),
    hook_provider (snd (run (context_value provider contract) a s)) = hook_provider s /\
    hook_contract (snd (run (context_value provider contract) a s)) = hook_contract s.
Proof. intros. apply accessor_keeps_cells. Qed.

(** C4. Take the [users] accessor of a render that saw the contract handle
    [c] (initialization succeeded), and an address for which the lookup
    returns a tuple whose id, partnersCount and registrationTime are
    BigNumbers within the safe integer range.  With a [toNumber] that is
    exact on that range, the accessor resolves to the record of the same
    four fields: the three integers as numbers of the same value, the
    referrer unchanged.  Nothing is logged. *)
Theorem users_returns_normalised_record :
  forall (s0 : State) (c : Contract) (userAddress : value) (s : State) (w : World)
         (fields : list (string * value))
         (id partnersCount registrationTime : Z) (referrer : value),
    hook_contract s0 = Some c ->
    (forall z, Z.abs z <= MAX_SAFE_INTEGER -> toNumber z = Returned z) ->
    invoke c "users" [userAddress] (world s) = (Returned (VObject fields), w) ->
    lookup_field "id" fields = Some (VBigNumber id) ->
    lookup_field "referrer" fields = Some referrer ->
    lookup_field "partnersCount" fields = Some (VBigNumber partnersCount) ->
    lookup_field "registrationTime" fields = Some (VBigNumber registrationTime) ->
    Z.abs id <= MAX_SAFE_INTEGER ->
    Z.abs partnersCount <= MAX_SAFE_INTEGER ->
    Z.abs registrationTime <= MAX_SAFE_INTEGER ->
    ctx_users (SmartContractProvider s0) userAddress s
    = (Returned (VObject [("id", VNumber id);
                          ("referrer", referrer);
                          ("partnersCount", VNumber partnersCount);
                          ("registrationTime", VNumber registrationTime)]),
       record_call s w (EvInvoke c "users" [userAddress] (Returned (VObject fields)))).
Proof.
  intros s0 c userAddress s w fields id partnersCount registrationTime referrer
    Hc Hexact Hcall Hid Href Hpc Hrt Rid Rpc Rrt.
  unfold SmartContractProvider, context_value, ctx_users. rewrite Hc.
  unfold users. unfold_effects. rewrite Hcall.
  unfold get_prop, call_toNumber. rewrite Hid, Href, Hpc, Hrt.
  rewrite (Hexact id Rid), (Hexact partnersCount Rpc), (Hexact registrationTime Rrt).
  reflexivity.
Qed.

(** C5. For [userX4Matrix], [getTotalCycles] and [getPartnerCount], with any
    arguments: when the read call yields a BigNumber that [toNumber]
    converts to [n], the accessor resolves to the number [n] and logs
    nothing; and in every case the accessor resolves either to such a
    number or to null. *)
Theorem numeric_accessors_normalise_or_null :
  forall (provider : option JsonRpcProvider) (c : Contract) (a : accessor_call)
         (m : string) (ps : list value) (s : State),
    numeric_accessor a = true ->
    read_target a = Some (m, ps) ->
    (forall z n w,
        invoke c m ps (world s) = (Returned (VBigNumber z), w) ->
        toNumber z = Returned n ->
        run (context_value provider (Some c)) a s
        = (Returned (VNumber n),
           record_call s w (EvInvoke c m ps (Returned (VBigNumber z))))) /\
    (fst (run (context_value provider (Some c)) a s) = Returned VNull \/
     exists z n,
       fst (invoke c m ps (world s)) = Returned (VBigNumber z) /\
       toNumber z = Returned n /\
       fst (run (context_value provider (Some c)) a s) = Returned (VNumber n)).
Proof.
  intros provider c a m ps s Hnum Ht.
  destruct a; try discriminate Hnum; simpl in Ht; injection Ht as <- <-; simpl;
    unfold userX4Matrix, getTotalCycles, getPartnerCount; unfold_effects;
    (split;
     [ intros z n w Hcall Hn; rewrite Hcall; simpl; rewrite Hn; reflexivity
     | destruct (invoke c _ _ (world s)) as [[v|e] w]; simpl; [|left; reflexivity];
       destruct v; simpl; try (left; reflexivity);
       destruct (toNumber z) as [n|e] eqn:Hn; simpl;
       [ right; exists z, n; repeat split; assumption
       | left; reflexivity ] ]).
Qed.

(** C6. For every address and every level (so in particular for the levels
    1..N of the schema), when the read call yields the boolean [b],
    [usersActiveX3Levels], respectively [usersActiveX4Levels], resolves to
    exactly [b]; when the read call throws, it resolves to null. *)
Theorem active_levels_return_the_boolean :
  forall (c : Contract) (userAddress level : value) (s : State) (w : World),
    (forall b,
        invoke c "usersActiveX3Levels" [userAddress; level] (world s)
        = (Returned (VBool b), w) ->
        fst (usersActiveX3Levels (Some c) userAddress level s) = Returned (VBool b)) /\
    (forall b,
        invoke c "usersActiveX4Levels" [userAddress; level] (world s)
        = (Returned (VBool b), w) ->
        fst (usersActiveX4Levels (Some c) userAddress level s) = Returned (VBool b)) /\
    (forall e,
        invoke c "usersActiveX3Levels" [userAddress; level] (world s) = (Threw e, w) ->
        fst (usersActiveX3Levels (Some c) userAddress level s) = Returned VNull) /\
    (forall e,
        invoke c "usersActiveX4Levels" [userAddress; level] (world s) = (Threw e, w) ->
        fst (usersActiveX4Levels (Some c) userAddress level s) = Returned VNull).
Proof.
  intros c userAddress level s w.
  unfold usersActiveX3Levels, usersActiveX4Levels. unfold_effects.
  repeat split; intros x Hcall; rewrite Hcall; reflexivity.
Qed.

(** C7. For every address and level, when the read call [usersX3Matrix]
    yields [raw], whatever kind of value it is (a BigNumber stays a
    BigNumber), [userX3Matrix] resolves to [raw] itself and logs nothing;
    when the read call throws, it resolves to null. *)
Theorem userX3Matrix_returns_raw :
  forall (c : Contract) (userAddress level : value) (s : State) (w : World),
    (forall raw,
        invoke c "usersX3Matrix" [userAddress; level] (world s) = (Returned raw, w) ->
        userX3Matrix (Some c) userAddress level s
        = (Returned raw,
           record_call s w
             (EvInvoke c "usersX3Matrix" [userAddress; level] (Returned raw)))) /\
    (forall e,
        invoke c "usersX3Matrix" [userAddress; level] (world s) = (Threw e, w) ->
        fst (userX3Matrix (Some c) userAddress level s) = Returned VNull).
Proof.
  intros c userAddress level s w.
  unfold userX3Matrix. unfold_effects.
  split; intros x Hcall; rewrite Hcall; reflexivity.
Qed.

(** C8. For every method name and parameter list, [fetchData] makes one
    external call, the method of that name on the stored contract handle
    with those parameters; when it yields [raw], [fetchData] resolves to
    [raw] itself and logs nothing; when it throws, [fetchData] resolves to
    null. *)
Theorem fetchData_returns_raw :
  forall (c : Contract) (methodName : string) (params : list value)
         (s : State) (w : World),
    new_events s (snd (fetchData (Some c) methodName params s))
    = [EvInvoke c methodName params (fst (invoke c methodName params (world s)))] /\
    (forall raw,
        invoke c methodName params (world s) = (Returned raw, w) ->
        fetchData (Some c) methodName params s
        = (Returned raw,
           record_call s w (EvInvoke c methodName params (Returned raw)))) /\
    (forall e,
        invoke c methodName params (world s) = (Threw e, w) ->
        fst (fetchData (Some c) methodName params s) = Returned VNull).
Proof.
  intros c methodName params s w. split.
  - apply new_events_app.
    apply (read_accessor_trace None c (FetchData methodName params)
             methodName params s eq_refl).
  - unfold fetchData. unfold_effects.
    split; intros x Hcall; rewrite Hcall; reflexivity.
Qed.

(** C10. Without a mounted provider the hook throws an Error.  Under a
    mounted provider it returns the context value of that provider's
    render; that value is made of the nine accessors, closed over the cells
    the render saw, and of the provider cell, and of nothing else: a
    context value is determined by these ten components. *)
Theorem useSmartContract_requires_provider :
  useSmartContract None
  = Threw (VError "Error" "useSmartContract must be used within a SmartContractProvider")
  /\
  forall s : State,
    let ctx := SmartContractProvider s in
    useSmartContract (Some ctx) = Returned ctx /\
    ctx = mkContext
            (fetchData (hook_contract s))
            (writeData (hook_provider s) (hook_contract s))
            (users (hook_contract s))
            (usersActiveX3Levels (hook_contract s))
            (usersActiveX4Levels (hook_contract s))
            (getTotalCycles (hook_contract s))
            (userX3Matrix (hook_contract s))
            (userX4Matrix (hook_contract s))
            (getPartnerCount (hook_contract s))
            (hook_provider s).
Proof. split; [reflexivity|]. intros s ctx. split; reflexivity. Qed.

(** ** Further properties of the component *)

(** X1. [init] never rejects, whatever the constructors do.  Either both
    cells end up set and nothing was logged, or the contract cell is left
    as it was and exactly one line was logged, the initialisation message
    with the error. *)
Theorem init_settles_with_at_most_one_line :
  forall s : State,
    fst (init s) = Returned tt /\
    ((exists p c,
         hook_provider (snd (init s)) = Some p /\
         hook_contract (snd (init s)) = Some c /\
         console (snd (init s)) = console s)
     \/
     (exists e,
         hook_contract (snd (init s)) = hook_contract s /\
         console (snd (init s))
         = (console s
            ++ [[VString "Error initializing provider or contract:"; e]])%list)).
Proof.
  intros s. unfold init, setProvider, setContract. unfold_effects.
  destruct (new_JsonRpcProvider _ (world s)) as [[p|e] w1]; simpl.
  - destruct (new_Contract CONTRACT_ADDRESS abi p w1) as [[c|e] w2]; simpl.
    + split; [reflexivity|]. left. exists p, c. repeat split.
    + split; [reflexivity|]. right. exists e. split; reflexivity.
  - split; [reflexivity|]. right. exists e. split; reflexivity.
Qed.

(** X2. When the provider is constructed and the contract constructor then
    throws, the render after [init] publishes a provider that is set while
    the contract is not: the context carries the provider, and every
    accessor of that context resolves to null without calling anything. *)
Theorem contract_failure_exposes_provider_only :
  forall (w w1 w2 : World) (p : JsonRpcProvider) (e : value),
    new_JsonRpcProvider ("https://bsc-testnet.infura.io/v3/" ++ INFURA_PROJECT_ID) w
    = (Returned p, w1) ->
    new_Contract CONTRACT_ADDRESS abi p w1 = (Threw e, w2) ->
    ctx_provider (SmartContractProvider (snd (init (mount w)))) = Some p /\
    hook_contract (snd (init (mount w))) = None /\
    forall (a : accessor_call) (s : State),
      run (SmartContractProvider (snd (init (mount w)))) a s = (Returned VNull, s).
Proof.
  intros w w1 w2 p e Hp Hc.
  destruct (init_contract_failure (mount w) p e w1 w2 Hp Hc) as (_ & Hprov & Hcon & _).
  simpl in Hcon. unfold SmartContractProvider. rewrite Hprov, Hcon.
  repeat split. intros a s. apply run_unset.
Qed.

(** X3. Starting from the mounted state, when [init] leaves a contract in
    its cell, the provider cell holds a provider, the contract was built at
    [CONTRACT_ADDRESS] on that very provider, these two constructions are
    the only external calls made, and nothing was logged. *)
Theorem stored_contract_is_bound_to_stored_provider :
  forall (w : World) (c : Contract),
    hook_contract (snd (init (mount w))) = Some c ->
    exists p,
      hook_provider (snd (init (mount w))) = Some p /\
      trace (snd (init (mount w)))
      = [EvNewProvider ("https://bsc-testnet.infura.io/v3/" ++ INFURA_PROJECT_ID)
           (Returned p);
         EvNewContract CONTRACT_ADDRESS p (Returned c)] /\
      console (snd (init (mount w))) = [].
Proof.
  intros w c. unfold init, setProvider, setContract. unfold_effects. simpl.
  destruct (new_JsonRpcProvider _ w) as [[p|e] w1]; simpl.
  - destruct (new_Contract CONTRACT_ADDRESS abi p w1) as [[c0|e] w2]; simpl.
    + intros H. injection H as ->. exists p. repeat split.
    + discriminate.
  - discriminate.
Qed.

(** X4. No accessor ever rejects: with any captured cells, any arguments and
    any behaviour of the external calls (including results of the wrong
    kind and a throwing [toNumber]), the promise resolves. *)
Theorem accessors_always_resolve :
  forall (provider : option JsonRpcProvider) (contract : option Contract)
         (a : accessor_call) (s : State),
    exists v, fst (run (context_value provider contract) a s) = Returned v.
Proof. intros provider contract a s. apply accessor_never_rejects. Qed.

(** X5. An accessor run logs at most one line, and a run that logs resolves
    to null: either the console is as before, or the result is null and the
    console gained one line made of the accessor's failure message and an
    error.  So a result other than null means nothing was logged. *)
Theorem accessor_logs_only_when_null :
  forall (provider : option JsonRpcProvider) (contract : option Contract)
         (a : accessor_call) (s : State),
    console (snd (run (context_value provider contract) a s)) = console s \/
    (fst (run (context_value provider contract) a s) = Returned VNull /\
     exists e,
       console (snd (run (context_value provider contract) a s))
       = (console s ++ [[VString (failure_message a); e]])%list).
Proof.
  intros provider [c|] a s; [|rewrite run_unset; left; reflexivity].
  destruct (read_target a) as [[m ps]|] eqn:Ht.
  - destruct (fst (invoke c m ps (world s))) as [v|e] eqn:Hr.
    + destruct (read_accessor_success provider c a m ps s v Ht Hr) as [[x ->]|[e ->]].
      * left. reflexivity.
      * right. split; [reflexivity|]. exists e. reflexivity.
    + rewrite (read_accessor_failure provider c a m ps s e Ht Hr).
      right. split; [reflexivity|]. exists e. reflexivity.
  - destruct a; try discriminate.
    change (run (context_value provider (Some c)) (WriteData methodName params) s)
      with (writeData provider (Some c) methodName params s).
    destruct (writeData_cases provider c methodName params s)
      as (evs & _ & [(pre & c' & hash & receipt & _ & _ & _ & Hcon)
                    |(e & Hr & Hlog & _)]).
    + left. exact Hcon.
    + right. split; [exact Hr|]. exists e. exact Hlog.
Qed.

(** X6. A read accessor (every accessor but [writeData]) does nothing
    outside but evaluate its one call expression: among the events of a
    run there is at most one, and it is the evaluation of the contract
    method [read_target] names, with the arguments it lists, on the stored
    handle (an evaluation that throws before anything is sent, as when the
    handle has no such method, is such an event).  It asks for no signer,
    derives no handle and waits for nothing. *)
Theorem read_accessors_only_call_their_method :
  forall (provider : option JsonRpcProvider) (c : Contract) (a : accessor_call)
         (m : string) (ps : list value) (s : State),
    read_target a = Some (m, ps) ->
    let evs := new_events s (snd (run (context_value provider (Some c)) a s)) in
    (length evs <= 1)%nat /\
    (forall ev, In ev evs -> ev = EvInvoke c m ps (fst (invoke c m ps (world s)))) /\
    (forall p r, ~ In (EvGetSigner p r) evs) /\
    (forall c0 signer r, ~ In (EvConnect c0 signer r) evs) /\
    (forall hash r, ~ In (EvWait hash r) evs).
Proof.
  intros provider c a m ps s Ht evs. unfold evs.
  rewrite (new_events_app _ _ _ (read_accessor_trace provider c a m ps s Ht)).
  split; [simpl; lia|].
  split; [intros ev [<-|[]]; reflexivity|].
  repeat split; intros; intros [H|[]]; discriminate H.
Qed.

Lemma new_events_same (s : State) : new_events s s = [].
Proof. unfold new_events. apply skipn_all. Qed.

(** X7. One [writeData] call submits at most once and waits at most once
    (no retry).  A contract method call it makes carries the method name
    and parameters it was given, and is made on a handle that [connect]
    returned for the stored contract during this same call. *)
Theorem writeData_submits_at_most_once :
  forall (provider : option JsonRpcProvider) (contract : option Contract)
         (methodName : string) (params : list value) (s : State),
    let evs := new_events s (snd (writeData provider contract methodName params s)) in
    (length (filter is_invoke evs) <= 1)%nat /\
    (length (filter is_wait evs) <= 1)%nat /\
    forall c' m' ps' r,
      In (EvInvoke c' m' ps' r) evs ->
      m' = methodName /\ ps' = params /\
      exists c signer,
        contract = Some c /\ In (EvConnect c signer (Returned c')) evs.
Proof.
  intros provider [c|] m ps s; cbv zeta.
  2: { simpl. unfold ret. simpl. rewrite new_events_same.
       simpl. repeat split; auto; contradiction. }
  unfold writeData. unfold_effects.
  repeat split_outcome; cbn [fst snd];
    (erewrite new_events_app
       by (unfold record_call, record_log; cbn [trace];
           rewrite <- ?app_assoc; simpl; reflexivity));
    (split; [simpl; lia|]); (split; [simpl; lia|]);
    intros c' m' ps' r Hin; cases_of_In Hin;
    try contradiction; try discriminate;
    injection Hin as <- <- <- <-;
    (split; [reflexivity|]); (split; [reflexivity|]);
    eexists _, _; (split; [reflexivity|]); simpl; auto.
Qed.

(** X8. Whatever the lookup yields, [users] resolves either to null or to an
    object with exactly the keys id, referrer, partnersCount and
    registrationTime, in this order, whose three numeric fields are
    numbers: it never hands out a partial record or a BigNumber. *)
Theorem users_result_shape :
  forall (contract : option Contract) (userAddress : value) (s : State),
    fst (users contract userAddress s) = Returned VNull \/
    exists id referrer partnersCount registrationTime,
      fst (users contract userAddress s)
      = Returned (VObject [("id", VNumber id);
                           ("referrer", referrer);
                           ("partnersCount", VNumber partnersCount);
                           ("registrationTime", VNumber registrationTime)]).
Proof.
  intros [c|] userAddress s; [|left; reflexivity].
  unfold users, get_prop, call_toNumber. unfold_effects.
  repeat split_outcome; cbn [fst snd];
    first [ left; reflexivity | right; eexists _, _, _, _; reflexivity ].
Qed.

(** X9. For [userX4Matrix], [getTotalCycles] and [getPartnerCount]: when the
    read call yields a BigNumber on which [toNumber] throws [e] (a value
    beyond the number range), the accessor resolves to null, and logs its
    failure message with [e]; the value read is lost to the caller. *)
Theorem numeric_overflow_yields_null :
  forall (provider : option JsonRpcProvider) (c : Contract) (a : accessor_call)
         (m : string) (ps : list value) (s : State) (z : Z) (w : World) (e : value),
    numeric_accessor a = true ->
    read_target a = Some (m, ps) ->
    invoke c m ps (world s) = (Returned (VBigNumber z), w) ->
    toNumber z = Threw e ->
    run (context_value provider (Some c)) a s
    = (Returned VNull,
       record_log (record_call s w (EvInvoke c m ps (Returned (VBigNumber z))))
         [VString (failure_message a); e]).
Proof.
  intros provider c a m ps s z w e Hnum Ht Hcall Hz.
  destruct a; try discriminate Hnum; simpl in Ht; injection Ht as <- <-; simpl;
    unfold userX4Matrix, getTotalCycles, getPartnerCount; unfold_effects;
    rewrite Hcall; simpl; rewrite Hz; reflexivity.
Qed.

(** X10. [users] needs all three numeric fields: when the lookup yields a
    tuple in which id, partnersCount or registrationTime is missing, is not
    a BigNumber, or makes [toNumber] throw, the accessor resolves to null
    and logs one line, even if the other fields are fine. *)
Theorem users_needs_all_three_numbers :
  forall (c : Contract) (userAddress : value) (s : State) (w : World)
         (fields : list (string * value)),
    invoke c "users" [userAddress] (world s) = (Returned (VObject fields), w) ->
    converts fields "id" && converts fields "partnersCount"
      && converts fields "registrationTime" = false ->
    fst (users (Some c) userAddress s) = Returned VNull /\
    exists e,
      console (snd (users (Some c) userAddress s))
      = (console s ++ [[VString "Error fetching user details:"; e]])%list.
Proof.
  intros c userAddress s w fields Hcall Hbad.
  unfold users, get_prop, call_toNumber. unfold_effects. rewrite Hcall.
  unfold converts in Hbad. cbn [fst snd].
  repeat split_outcome; cbn [fst snd];
    try (split; [reflexivity | eexists; reflexivity]).
  all: exfalso; revert Hbad;
    repeat match goal with
           | H : lookup_field _ _ = _ |- _ => rewrite H; clear H
           | H : toNumber _ = _ |- _ => rewrite H; clear H
           end;
    simpl; discriminate.
Qed.

(** X11. The referrer is not checked: when the three numeric fields convert
    and the tuple has no referrer field, [users] still resolves to a record,
    with referrer undefined, and logs nothing. *)
Theorem users_missing_referrer_is_undefined :
  forall (c : Contract) (userAddress : value) (s : State) (w : World)
         (fields : list (string * value)) (id partnersCount registrationTime : Z)
         (n1 n2 n3 : Z),
    invoke c "users" [userAddress] (world s) = (Returned (VObject fields), w) ->
    lookup_field "id" fields = Some (VBigNumber id) ->
    lookup_field "partnersCount" fields = Some (VBigNumber partnersCount) ->
    lookup_field "registrationTime" fields = Some (VBigNumber registrationTime) ->
    toNumber id = Returned n1 ->
    toNumber partnersCount = Returned n2 ->
    toNumber registrationTime = Returned n3 ->
    lookup_field "referrer" fields = None ->
    users (Some c) userAddress s
    = (Returned (VObject [("id", VNumber n1);
                          ("referrer", VUndefined);
                          ("partnersCount", VNumber n2);
                          ("registrationTime", VNumber n3)]),
       record_call s w (EvInvoke c "users" [userAddress] (Returned (VObject fields)))).
Proof.
  intros c userAddress s w fields id partnersCount registrationTime n1 n2 n3
    Hcall Hid Hpc Hrt H1 H2 H3 Href.
  unfold users, get_prop, call_toNumber. unfold_effects. rewrite Hcall.
  rewrite Hid, Hpc, Hrt, Href, H1, H2, H3. reflexivity.
Qed.



(** X14. The three typed accessors that return the raw result are
    [fetchData] at a fixed method name: same result, same external call,
    same world afterwards.  [userX3Matrix] is [fetchData] at
    usersX3Matrix, with an s.  (The console is not compared: the text
    logged on failure is each accessor's own.) *)
Theorem raw_accessors_are_fetchData :
  forall (contract : option Contract) (userAddress level : value) (s : State),
    let same (r r' : outcome value * State) :=
      fst r = fst r' /\ world (snd r) = world (snd r') /\
      trace (snd r) = trace (snd r') in
    same (usersActiveX3Levels contract userAddress level s)
         (fetchData contract "usersActiveX3Levels" [userAddress; level] s) /\
    same (usersActiveX4Levels contract userAddress level s)
         (fetchData contract "usersActiveX4Levels" [userAddress; level] s) /\
    same (userX3Matrix contract userAddress level s)
         (fetchData contract "usersX3Matrix" [userAddress; level] s).
Proof.
  intros [c|] userAddress level s; cbv zeta; [|repeat split].
  unfold usersActiveX3Levels, usersActiveX4Levels, userX3Matrix, fetchData.
  unfold_effects.
  repeat split; match goal with
                | |- context [invoke c ?m ?ps (world s)] =>
                    destruct (invoke c m ps (world s)) as [[v|e] w]; reflexivity
                end.
Qed.

(** X15. Accessors keep the contract their render saw.  After a successful
    [init] on the mounted state, the accessors published by the first
    render still resolve to null without calling anything, while
    [fetchData] of a render made after [init] calls the method on the
    contract [init] built. *)
Theorem accessors_keep_the_contract_of_their_render :
  forall (w w1 w2 : World) (p : JsonRpcProvider) (c : Contract),
    new_JsonRpcProvider ("https://bsc-testnet.infura.io/v3/" ++ INFURA_PROJECT_ID) w
    = (Returned p, w1) ->
    new_Contract CONTRACT_ADDRESS abi p w1 = (Returned c, w2) ->
    let before := mount w in
    let after := snd (init before) in
    (forall a, run (SmartContractProvider before) a after = (Returned VNull, after)) /\
    (forall methodName params,
        new_events after
          (snd (ctx_fetchData (SmartContractProvider after) methodName params after))
        = [EvInvoke c methodName params (fst (invoke c methodName params w2))]).
Proof.
  intros w w1 w2 p c Hp Hc before after.
  assert (Hafter : after
            = mkState w2 []
                [EvNewProvider ("https://bsc-testnet.infura.io/v3/" ++ INFURA_PROJECT_ID)
                   (Returned p);
                 EvNewContract CONTRACT_ADDRESS p (Returned c)]
                (Some p) (Some c)).
  { unfold after, before. rewrite (init_success (mount w) p c w1 w2 Hp Hc).
    reflexivity. }
  split.
  - intros a. apply run_unset.
  - intros m ps. rewrite Hafter. apply new_events_app.
    exact (read_accessor_trace (Some p) c (FetchData m ps) m ps
             (mkState w2 [] _ (Some p) (Some c)) eq_refl).
Qed.

Lemma append_colon_injective (m m' : string) : m ++ ":" = m' ++ ":" -> m = m'.
Proof.
  revert m'. induction m as [|a m IH]; intros [|a' m'] H; simpl in H.
  - reflexivity.
  - injection H as _ H. destruct m'; discriminate.
  - injection H as _ H. destruct m; discriminate.
  - injection H as -> H. f_equal. apply IH. exact H.
Qed.

(** X16. The message of a logged line tells which accessor failed: two
    accessor calls with the same failure message are calls of the same
    accessor, and for [fetchData] and [writeData] of the same method
    name. *)
Theorem failure_message_identifies_accessor :
  forall a b : accessor_call,
    failure_message a = failure_message b ->
    accessor_name a = accessor_name b /\ dynamic_method a = dynamic_method b.
Proof.
  intros a b H.
  destruct a, b; simpl in H; try discriminate H; simpl;
    try (split; reflexivity);
    repeat (injection H as H);
    apply append_colon_injective in H; subst; split; reflexivity.
Qed.

(** In every reachable state a stored contract comes with a stored
    provider: [init] writes the provider cell first and nothing clears it. *)
Lemma reachable_contract_has_provider (s : State) :
  reachable s -> hook_contract s <> None -> hook_provider s <> None.
Proof.
  induction 1 as [w | s Hs IH | s0 s a H0 IH0 Hs IH | s w Hs IH]; simpl.
  - intros H. contradiction.
  - unfold init, setProvider, setContract. unfold_effects.
    destruct (new_JsonRpcProvider _ (world s)) as [[p|e] w1]; simpl.
    + destruct (new_Contract CONTRACT_ADDRESS abi p w1) as [[c|e] w2]; simpl;
        intros _; discriminate.
    + exact IH.
  - destruct (accessor_keeps_cells (hook_provider s0) (hook_contract s0) a s)
      as [Hp Hc].
    unfold SmartContractProvider. rewrite Hp, Hc. exact IH.
  - exact IH.
Qed.

(** X17. A render of a reachable state that sees a contract sees a provider
    too, so its [writeData] never takes the branch without a provider: in
    whatever state it is called, the first external call it makes is the
    signer request on that provider. *)
Theorem writeData_always_asks_the_stored_provider :
  forall (s0 : State) (c : Contract),
    reachable s0 ->
    hook_contract s0 = Some c ->
    exists p,
      hook_provider s0 = Some p /\
      forall (methodName : string) (params : list value) (s : State),
        hd_error
          (new_events s
             (snd (ctx_writeData (SmartContractProvider s0) methodName params s)))
        = Some (EvGetSigner p (fst (getSigner p (world s)))).
Proof.
  intros s0 c Hreach Hc.
  pose proof (reachable_contract_has_provider s0 Hreach) as Hp.
  rewrite Hc in Hp. specialize (Hp ltac:(discriminate)).
  destruct (hook_provider s0) as [p|] eqn:Hprov; [|contradiction].
  exists p. split; [reflexivity|]. intros m ps s.
  unfold SmartContractProvider, context_value, ctx_writeData. rewrite Hprov, Hc.
  unfold writeData. unfold_effects.
  repeat split_outcome; cbn [fst snd];
    (erewrite new_events_app
       by (unfold record_call, record_log; cbn [trace];
           rewrite <- ?app_assoc; simpl; reflexivity));
    reflexivity.
Qed.

End GatewayProperties.

(** ** The properties at work on the concrete collaborator *)

(** The first render publishes accessors that see no contract. *)
Example demo_before_init :
  @run demo (@SmartContractProvider demo demo_mounted) (Users (VString "0xB0b"))
    demo_mounted
  = (Returned VNull, demo_mounted).
Proof. reflexivity. Qed.

(** A partner count of 2^60 does not fit a number: [toNumber] throws, the
    accessor logs the overflow and resolves to null. *)
Example demo_partner_count_overflow :
  let R := @run demo (@SmartContractProvider demo demo_ready)
             (GetPartnerCount (VString "0xB0b") (VNumber 1) (VNumber 2)) demo_ready in
  fst R = Returned VNull /\
  @console demo (snd R)
  = [[VString "Error fetching partner count:"; VError "Error" "overflow"]].
Proof. split; reflexivity. Qed.

(** The read-only handle cannot send a transaction: [fetchData] on a
    mutating method resolves to null. *)
Example demo_fetch_mutating :
  fst (@fetchData demo (Some demo_contract) "registrationExt" [VString "0xB0b"]
         demo_ready)
  = Returned VNull.
Proof. reflexivity. Qed.

(** With every call rejected, [writeData] stops at the contract call: the
    wait never starts and the result is null. *)
Example offline_write :
  let R := @writeData offline (Some "rpc") (Some false) "registrationExt" []
             offline_state in
  fst R = Returned VNull /\
  @new_events offline offline_state (snd R)
  = [@EvGetSigner offline "rpc" (Returned "rpc");
     @EvConnect offline false (Some "rpc") (Returned true);
     @EvInvoke offline true "registrationExt" []
       (Threw (VError "Error" "network fault"))].
Proof. split; reflexivity. Qed.

Lemma demo_toNumber_exact (z : Z) :
  Z.abs z <= MAX_SAFE_INTEGER -> demo_toNumber z = Returned z.
Proof.
  intros H. unfold demo_toNumber.
  destruct (Z.leb_spec (Z.abs z) MAX_SAFE_INTEGER) as [_|Hlt]; [reflexivity|lia].
Qed.

Lemma failure_contained_and_logged_once_witness :
  let a := GetTotalCycles (VString "0xB0b") (VNumber 1) (VNumber 2) in
  let e := VError "Error" "network fault" in
  let R := @run offline (@context_value offline (Some "rpc") (Some false)) a
             offline_state in
  @underlying_call_throws offline (Some "rpc") false offline_state a e 8%nat /\
  fst R = Returned VNull /\
  @console offline (snd R)
  = (@console offline offline_state ++ [[VString (failure_message a); e]])%list /\
  @world offline (snd R) = 8%nat.
Proof.
  intros a e R.
  assert (H : @underlying_call_throws offline (Some "rpc") false offline_state a e 8%nat).
  { apply (@read_call_throws offline (Some "rpc") false offline_state a
             "getTotalCycles" [VString "0xB0b"; VNumber 1; VNumber 2] e 8%nat);
      reflexivity. }
  exact (conj H
           (@failure_contained_and_logged_once offline (Some "rpc") false a
              offline_state e 8%nat H)).
Defined.

Lemma writeData_resolves_after_confirmation_witness :
  @writeData demo demo_provider (Some demo_contract)
    "registrationExt" [VString "0xB0b"] demo_ready
  = (Returned (VTransaction 100), demo_written) /\
  VTransaction 100 <> VNull /\
  exists c signer w0 c' w1 hash w2 receipt pre,
    Some demo_contract = Some c /\
    VTransaction 100 = VTransaction hash /\
    @optional_getSigner demo demo_provider (@world demo demo_ready)
    = (Returned signer, w0) /\
    @connect demo c signer w0 = (Returned c', w1) /\
    @invoke demo c' "registrationExt" [VString "0xB0b"] w1
    = (Returned (VTransaction hash), w2) /\
    @wait demo hash w2 = (Returned receipt, @world demo demo_written) /\
    @new_events demo demo_ready demo_written
    = (pre ++ [@EvInvoke demo c' "registrationExt" [VString "0xB0b"]
                 (Returned (VTransaction hash));
               @EvWait demo hash (Returned receipt)])%list.
Proof.
  assert (Hrun : @writeData demo demo_provider (Some demo_contract)
                   "registrationExt" [VString "0xB0b"] demo_ready
                 = (Returned (VTransaction 100), demo_written)) by reflexivity.
  assert (Hv : VTransaction 100 <> VNull) by discriminate.
  exact (conj Hrun (conj Hv
           (proj1 (@writeData_resolves_after_confirmation demo demo_provider
                     (Some demo_contract) "registrationExt" [VString "0xB0b"]
                     demo_ready)
              demo_written (VTransaction 100) Hrun Hv))).
Defined.

Lemma users_returns_normalised_record_witness :
  @hook_contract demo demo_ready = Some demo_contract /\
  (forall z, Z.abs z <= MAX_SAFE_INTEGER -> @toNumber demo z = Returned z) /\
  @invoke demo demo_contract "users" [VString "0xB0b"] (@world demo demo_ready)
  = (Returned demo_user, 100%nat) /\
  @ctx_users demo (@SmartContractProvider demo demo_ready) (VString "0xB0b") demo_ready
  = (Returned (VObject [("id", VNumber 7);
                        ("referrer", VString "0xA11ce");
                        ("partnersCount", VNumber 3);
                        ("registrationTime", VNumber 1700000000)]),
     @record_call demo demo_ready 100%nat
       (@EvInvoke demo demo_contract "users" [VString "0xB0b"] (Returned demo_user))).
Proof.
  assert (Hc : @hook_contract demo demo_ready = Some demo_contract) by reflexivity.
  assert (Hcall : @invoke demo demo_contract "users" [VString "0xB0b"]
                    (@world demo demo_ready)
                  = (Returned demo_user, 100%nat)) by reflexivity.
  refine (conj Hc (conj demo_toNumber_exact (conj Hcall _))).
  refine (@users_returns_normalised_record demo demo_ready demo_contract
            (VString "0xB0b") demo_ready 100%nat _ 7 3 1700000000 (VString "0xA11ce")
            Hc demo_toNumber_exact Hcall eq_refl eq_refl eq_refl eq_refl _ _ _);
    unfold MAX_SAFE_INTEGER; simpl; lia.
Defined.

Lemma numeric_accessors_normalise_or_null_witness :
  let a := GetTotalCycles (VString "0xB0b") (VNumber 1) (VNumber 2) in
  numeric_accessor a = true /\
  read_target a
  = Some ("getTotalCycles", [VString "0xB0b"; VNumber 1; VNumber 2]) /\
  @invoke demo demo_contract "getTotalCycles" [VString "0xB0b"; VNumber 1; VNumber 2]
    (@world demo demo_ready)
  = (Returned (VBigNumber 12), 100%nat) /\
  @toNumber demo 12 = Returned 12 /\
  fst (@run demo (@context_value demo demo_provider (Some demo_contract)) a demo_ready)
  = Returned (VNumber 12).
Proof.
  intros a.
  assert (Hnum : numeric_accessor a = true) by reflexivity.
  assert (Ht : read_target a
               = Some ("getTotalCycles", [VString "0xB0b"; VNumber 1; VNumber 2]))
    by reflexivity.
  assert (Hcall : @invoke demo demo_contract "getTotalCycles"
                    [VString "0xB0b"; VNumber 1; VNumber 2] (@world demo demo_ready)
                  = (Returned (VBigNumber 12), 100%nat)) by reflexivity.
  assert (Hn : @toNumber demo 12 = Returned 12) by reflexivity.
  refine (conj Hnum (conj Ht (conj Hcall (conj Hn _)))).
  exact (f_equal fst
           (proj1 (@numeric_accessors_normalise_or_null demo demo_provider demo_contract
                     a _ _ demo_ready Hnum Ht) 12 12 100%nat Hcall Hn)).
Defined.

Lemma active_levels_return_the_boolean_witness :
  @invoke demo demo_contract "usersActiveX3Levels" [VString "0xB0b"; VNumber 2]
    (@world demo demo_ready)
  = (Returned (VBool true), 100%nat) /\
  fst (@usersActiveX3Levels demo (Some demo_contract) (VString "0xB0b") (VNumber 2)
         demo_ready)
  = Returned (VBool true).
Proof.
  assert (Hcall : @invoke demo demo_contract "usersActiveX3Levels"
                    [VString "0xB0b"; VNumber 2] (@world demo demo_ready)
                  = (Returned (VBool true), 100%nat)) by reflexivity.
  exact (conj Hcall
           (proj1 (@active_levels_return_the_boolean demo demo_contract
                     (VString "0xB0b") (VNumber 2) demo_ready 100%nat) true Hcall)).
Defined.

Lemma userX3Matrix_returns_raw_witness :
  let raw := VObject [("0", VString "0xA11ce"); ("2", VBool false)] in
  @invoke demo demo_contract "usersX3Matrix" [VString "0xB0b"; VNumber 2]
    (@world demo demo_ready)
  = (Returned raw, 100%nat) /\
  @userX3Matrix demo (Some demo_contract) (VString "0xB0b") (VNumber 2) demo_ready
  = (Returned raw,
     @record_call demo demo_ready 100%nat
       (@EvInvoke demo demo_contract "usersX3Matrix" [VString "0xB0b"; VNumber 2]
          (Returned raw))).
Proof.
  intros raw.
  assert (Hcall : @invoke demo demo_contract "usersX3Matrix"
                    [VString "0xB0b"; VNumber 2] (@world demo demo_ready)
                  = (Returned raw, 100%nat)) by reflexivity.
  exact (conj Hcall
           (proj1 (@userX3Matrix_returns_raw demo demo_contract
                     (VString "0xB0b") (VNumber 2) demo_ready 100%nat) raw Hcall)).
Defined.

Lemma fetchData_returns_raw_witness :
  @invoke demo demo_contract "usersX4Matrix" [VString "0xB0b"; VNumber 2]
    (@world demo demo_ready)
  = (Returned (VBigNumber 5), 100%nat) /\
  @fetchData demo (Some demo_contract) "usersX4Matrix" [VString "0xB0b"; VNumber 2]
    demo_ready
  = (Returned (VBigNumber 5),
     @record_call demo demo_ready 100%nat
       (@EvInvoke demo demo_contract "usersX4Matrix" [VString "0xB0b"; VNumber 2]
          (Returned (VBigNumber 5)))).
Proof.
  assert (Hcall : @invoke demo demo_contract "usersX4Matrix"
                    [VString "0xB0b"; VNumber 2] (@world demo demo_ready)
                  = (Returned (VBigNumber 5), 100%nat)) by reflexivity.
  exact (conj Hcall
           (proj1 (proj2 (@fetchData_returns_raw demo demo_contract "usersX4Matrix"
                            [VString "0xB0b"; VNumber 2] demo_ready 100%nat))
              (VBigNumber 5) Hcall)).
Defined.

(** ** The further properties at work *)

Lemma contract_failure_exposes_provider_only_witness :
  let url := "https://bsc-testnet.infura.io/v3/" ++ INFURA_PROJECT_ID in
  @new_JsonRpcProvider bad_abi url 0%nat = (Returned url, 0%nat) /\
  @new_Contract bad_abi CONTRACT_ADDRESS (@abi bad_abi) url 0%nat
  = (Threw (VError "Error" "invalid fragment"), 0%nat) /\
  @ctx_provider bad_abi
    (@SmartContractProvider bad_abi (snd (@init bad_abi (@mount bad_abi 0%nat))))
  = Some url /\
  @hook_contract bad_abi (snd (@init bad_abi (@mount bad_abi 0%nat))) = None.
Proof.
  intros url.
  assert (Hp : @new_JsonRpcProvider bad_abi url 0%nat = (Returned url, 0%nat))
    by reflexivity.
  assert (Hc : @new_Contract bad_abi CONTRACT_ADDRESS (@abi bad_abi) url 0%nat
               = (Threw (VError "Error" "invalid fragment"), 0%nat)) by reflexivity.
  pose proof (@contract_failure_exposes_provider_only bad_abi 0%nat 0%nat 0%nat url
                (VError "Error" "invalid fragment") Hp Hc) as (H1 & H2 & _).
  exact (conj Hp (conj Hc (conj H1 H2))).
Defined.

Lemma stored_contract_is_bound_to_stored_provider_witness :
  @hook_contract demo (snd (@init demo (@mount demo 100%nat))) = Some demo_contract /\
  exists p,
    @hook_provider demo (snd (@init demo (@mount demo 100%nat))) = Some p /\
    @trace demo (snd (@init demo (@mount demo 100%nat)))
    = [@EvNewProvider demo ("https://bsc-testnet.infura.io/v3/" ++ INFURA_PROJECT_ID)
         (Returned p);
       @EvNewContract demo CONTRACT_ADDRESS p (Returned demo_contract)] /\
    @console demo (snd (@init demo (@mount demo 100%nat))) = [].
Proof.
  assert (H : @hook_contract demo (snd (@init demo (@mount demo 100%nat)))
              = Some demo_contract) by reflexivity.
  exact (conj H (@stored_contract_is_bound_to_stored_provider demo 100%nat
                   demo_contract H)).
Defined.

Lemma read_accessors_only_call_their_method_witness :
  let evs := @new_events demo demo_ready
               (snd (@run demo (@context_value demo demo_provider (Some demo_contract))
                       (Users (VString "0xB0b")) demo_ready)) in
  read_target (Users (VString "0xB0b")) = Some ("users", [VString "0xB0b"]) /\
  (length evs <= 1)%nat /\
  (forall hash r, ~ In (@EvWait demo hash r) evs).
Proof.
  intros evs.
  assert (Ht : read_target (Users (VString "0xB0b"))
               = Some ("users", [VString "0xB0b"])) by reflexivity.
  pose proof (@read_accessors_only_call_their_method demo demo_provider demo_contract
                (Users (VString "0xB0b")) "users" [VString "0xB0b"] demo_ready Ht)
    as (Hlen & _ & _ & _ & Hwait).
  exact (conj Ht (conj Hlen Hwait)).
Defined.

Lemma numeric_overflow_yields_null_witness :
  let a := GetPartnerCount (VString "0xB0b") (VNumber 1) (VNumber 2) in
  let ps := [VString "0xB0b"; VNumber 1; VNumber 2] in
  numeric_accessor a = true /\
  read_target a = Some ("getPartnerCount", ps) /\
  @invoke demo demo_contract "getPartnerCount" ps (@world demo demo_ready)
  = (Returned (VBigNumber (2 ^ 60)), 100%nat) /\
  @toNumber demo (2 ^ 60) = Threw (VError "Error" "overflow") /\
  fst (@run demo (@context_value demo demo_provider (Some demo_contract)) a demo_ready)
  = Returned VNull.
Proof.
  intros a ps.
  assert (Hnum : numeric_accessor a = true) by reflexivity.
  assert (Ht : read_target a = Some ("getPartnerCount", ps)) by reflexivity.
  assert (Hcall : @invoke demo demo_contract "getPartnerCount" ps
                    (@world demo demo_ready)
                  = (Returned (VBigNumber (2 ^ 60)), 100%nat)) by reflexivity.
  assert (Hz : @toNumber demo (2 ^ 60) = Threw (VError "Error" "overflow"))
    by reflexivity.
  exact (conj Hnum (conj Ht (conj Hcall (conj Hz
           (f_equal fst
              (@numeric_overflow_yields_null demo demo_provider demo_contract a
                 "getPartnerCount" ps demo_ready (2 ^ 60) 100%nat
                 (VError "Error" "overflow") Hnum Ht Hcall Hz)))))).
Defined.

Lemma users_needs_all_three_numbers_witness :
  let s := scripted_state huge_id 0%nat "rpc" false in
  @invoke huge_id false "users" [VString "0xB0b"] (@world huge_id s)
  = (Returned (VObject huge_id_fields), 1%nat) /\
  @converts huge_id huge_id_fields "id"
    && @converts huge_id huge_id_fields "partnersCount"
    && @converts huge_id huge_id_fields "registrationTime" = false /\
  fst (@users huge_id (Some false) (VString "0xB0b") s) = Returned VNull.
Proof.
  intros s.
  assert (Hcall : @invoke huge_id false "users" [VString "0xB0b"] (@world huge_id s)
                  = (Returned (VObject huge_id_fields), 1%nat)) by reflexivity.
  assert (Hbad : @converts huge_id huge_id_fields "id"
                   && @converts huge_id huge_id_fields "partnersCount"
                   && @converts huge_id huge_id_fields "registrationTime" = false)
    by reflexivity.
  exact (conj Hcall (conj Hbad
           (proj1 (@users_needs_all_three_numbers huge_id false (VString "0xB0b") s
                     1%nat huge_id_fields Hcall Hbad)))).
Defined.

Lemma users_missing_referrer_is_undefined_witness :
  let s := scripted_state no_referrer 0%nat "rpc" false in
  @invoke no_referrer false "users" [VString "0xB0b"] (@world no_referrer s)
  = (Returned (VObject no_referrer_fields), 1%nat) /\
  lookup_field "referrer" no_referrer_fields = None /\
  fst (@users no_referrer (Some false) (VString "0xB0b") s)
  = Returned (VObject [("id", VNumber 7);
                       ("referrer", VUndefined);
                       ("partnersCount", VNumber 3);
                       ("registrationTime", VNumber 1700000000)]).
Proof.
  intros s.
  assert (Hcall : @invoke no_referrer false "users" [VString "0xB0b"]
                    (@world no_referrer s)
                  = (Returned (VObject no_referrer_fields), 1%nat)) by reflexivity.
  assert (Href : lookup_field "referrer" no_referrer_fields = None) by reflexivity.
  exact (conj Hcall (conj Href
           (f_equal fst
              (@users_missing_referrer_is_undefined no_referrer false
                 (VString "0xB0b") s 1%nat no_referrer_fields 7 3 1700000000
                 7 3 1700000000 Hcall eq_refl eq_refl eq_refl eq_refl eq_refl eq_refl
                 Href)))).
Defined.



Lemma accessors_keep_the_contract_of_their_render_witness :
  let url := "https://bsc-testnet.infura.io/v3/" ++ INFURA_PROJECT_ID in
  @new_JsonRpcProvider demo url 100%nat = (Returned url, 100%nat) /\
  @new_Contract demo CONTRACT_ADDRESS (@abi demo) url 100%nat
  = (Returned demo_contract, 100%nat) /\
  forall a,
    @run demo (@SmartContractProvider demo demo_mounted) a demo_ready
    = (Returned VNull, demo_ready).
Proof.
  intros url.
  assert (Hp : @new_JsonRpcProvider demo url 100%nat = (Returned url, 100%nat))
    by reflexivity.
  assert (Hc : @new_Contract demo CONTRACT_ADDRESS (@abi demo) url 100%nat
               = (Returned demo_contract, 100%nat)) by reflexivity.
  exact (conj Hp (conj Hc
           (proj1 (@accessors_keep_the_contract_of_their_render demo 100%nat 100%nat
                     100%nat url demo_contract Hp Hc)))).
Defined.

Lemma failure_message_identifies_accessor_witness :
  failure_message (FetchData "users" []) = failure_message (FetchData "users" [VNull]) /\
  accessor_name (FetchData "users" []) = accessor_name (FetchData "users" [VNull]) /\
  dynamic_method (FetchData "users" []) = dynamic_method (FetchData "users" [VNull]).
Proof.
  assert (H : failure_message (FetchData "users" [])
              = failure_message (FetchData "users" [VNull])) by reflexivity.
  exact (conj H (failure_message_identifies_accessor
                   (FetchData "users" []) (FetchData "users" [VNull]) H)).
Defined.

Lemma writeData_always_asks_the_stored_provider_witness :
  @reachable demo demo_ready /\
  @hook_contract demo demo_ready = Some demo_contract /\
  exists p,
    @hook_provider demo demo_ready = Some p /\
    forall (methodName : string) (params : list value) (s : @State demo),
      hd_error
        (@new_events demo s
           (snd (@ctx_writeData demo (@SmartContractProvider demo demo_ready)
                   methodName params s)))
      = Some (@EvGetSigner demo p (fst (@getSigner demo p (@world demo s)))).
Proof.
  assert (Hreach : @reachable demo demo_ready)
    by (apply (@reach_init demo); apply (@reach_mount demo)).
  assert (Hc : @hook_contract demo demo_ready = Some demo_contract) by reflexivity.
  exact (conj Hreach (conj Hc
           (@writeData_always_asks_the_stored_provider demo demo_ready demo_contract
              Hreach Hc))).
Defined.
